(** * minitorch/datasets.py: synthetic 2D datasets

    A shallow embedding of [src/minitorch/datasets.py] and the properties of
    its point sampler, its six generators and its lookup table.

    Python values are modelled as follows:
    - [int] is [Z] (unbounded);
    - [float] is the kernel's binary64 [float], whose operations are the
      IEEE 754 ones Python uses; [math.cos] and [math.sin] come from the C
      library and are fields of the run-time interface;
    - the process-wide random source behind [random.random()] is a state
      threaded through every computation;
    - an exception ends the computation and leaves the state as it was when
      it was raised. *)

From Stdlib Require Import ZArith List Lia Bool.
From Stdlib Require String.
From Stdlib Require Import Floats.
Import ListNotations.
Import String.StringSyntax.
Delimit Scope string_scope with string.

#[local] Set Warnings "-inexact-float".
#[local] Open Scope Z_scope.

(** ** The run-time interface *)

(** The exceptions the arithmetic of this module can raise. *)
Inductive exn : Set :=
| ZeroDivisionError
| OverflowError.

Inductive outcome (A : Type) : Type :=
| Returned (a : A)
| Raised (e : exn).

Arguments Returned {A} a.
Arguments Raised {A} e.

(** What the module imports: the generator state behind [random.random()]
    with its step function, and the two functions of [math] it calls.
    [math_cos] and [math_sin] are the C library's functions, total on
    floats; Python's wrappers raise [ValueError] at an infinite argument
    only, which is not modelled. *)
Class PyRuntime : Type := {
  RngState : Type;
  rng_next : RngState -> float * RngState;
  math_cos : float -> float;
  math_sin : float -> float
}.

(** A computation reads and advances the random source and either returns
    or raises. *)
Definition Py {R : PyRuntime} (A : Type) : Type :=
  RngState -> outcome A * RngState.

Definition ret {R : PyRuntime} {A : Type} (a : A) : Py A :=
  fun s => (Returned a, s).

Definition raise {R : PyRuntime} {A : Type} (e : exn) : Py A :=
  fun s => (Raised e, s).

Definition bind {R : PyRuntime} {A B : Type} (c : Py A) (k : A -> Py B) : Py B :=
  fun s =>
    match c s with
    | (Returned a, s') => k a s'
    | (Raised e, s') => (Raised e, s')
    end.

Declare Scope py_scope.
Delimit Scope py_scope with py.
Notation "x <- c ;; k" := (bind c (fun x => k))
  (at level 61, c at next level, right associativity) : py_scope.
Notation "' p <- c ;; k" := (bind c (fun p => k))
  (at level 61, p pattern, c at next level, right associativity) : py_scope.
#[local] Open Scope py_scope.

(** [random.random()]: the next float of the source. *)
Definition random_random {R : PyRuntime} : Py float :=
  fun s => let (x, s') := rng_next s in (Returned x, s').

(** ** Python built-ins used by the module *)

(** [range(start, stop)]: empty when [stop <= start]. *)
Definition range (start stop : Z) : list Z :=
  map (fun k => start + Z.of_nat k) (seq 0 (Z.to_nat (stop - start))).

(** [for v in xs: body], the loop's local variables being the accumulator. *)
Fixpoint for_in {R : PyRuntime} {A S : Type}
    (xs : list A) (body : A -> S -> Py S) (acc : S) : Py S :=
  match xs with
  | [] => ret acc
  | v :: xs' => acc' <- body v acc ;; for_in xs' body acc'
  end.

(** [[e(v) for v in xs]]: elements are computed left to right and the
    first exception ends the comprehension. *)
Fixpoint list_comp {R : PyRuntime} {A B : Type}
    (e : A -> Py B) (xs : list A) : Py (list B) :=
  match xs with
  | [] => ret []
  | v :: xs' => b <- e v ;; bs <- list_comp e xs' ;; ret (b :: bs)
  end.

(** The binary64 value nearest to an integer (ties to even); integers too
    large in magnitude round to an infinity. *)
Definition int_to_double (i : Z) : float :=
  SF2Prim (binary_normalize prec emax i 0 false).

(** The least magnitude that rounds to an infinity: half way between the
    largest finite double, [2^1024 - 2^971], and [2^1024]. *)
Definition float_int_limit : Z := 2 ^ 1024 - 2 ^ 970.

(** [float(i)] for an [int]: correctly rounded, and [OverflowError] ("int
    too large to convert to float") when the result would not be finite. *)
Definition float_of_int {R : PyRuntime} (i : Z) : Py float :=
  if Z.abs i <? float_int_limit then ret (int_to_double i)
  else raise OverflowError.

(** [a / b] on two floats. *)
Definition float_truediv {R : PyRuntime} (a b : float) : Py float :=
  if (b =? 0)%float then raise ZeroDivisionError else ret (a / b)%float.

(** [a / b] for a float [a] and an int [b]: [b] is converted first, then
    tested against zero.  A non-zero integer converts to a non-zero float,
    so the test is written on the integer. *)
Definition float_truediv_int {R : PyRuntime} (a : float) (b : Z) : Py float :=
  b' <- float_of_int b ;;
  if b =? 0 then raise ZeroDivisionError else ret (a / b')%float.

(** The bound of an index-sized integer ([Py_ssize_t] of a 64-bit build). *)
Definition index_limit : Z := 2 ^ 63.

(** [[x] * k]: the count is first converted to an index-sized integer,
    which raises [OverflowError] ("cannot fit 'int' into an index-sized
    integer") outside [[-2^63, 2^63 - 1]]; the list is empty when
    [k <= 0].  Memory is taken as unbounded: [MemoryError] is not
    modelled, here or elsewhere. *)
Definition list_repeat {R : PyRuntime} {A : Type} (x : A) (k : Z) : Py (list A) :=
  if (- index_limit <=? k) && (k <? index_limit)
  then ret (repeat x (Z.to_nat k))
  else raise OverflowError.

(** ** Data model *)

Definition point : Type := float * float.

(** The [Graph] dataclass. *)
Record Graph : Type := mkGraph {
  N : Z;
  X : list point;
  y : list Z
}.

(** ** The point sampler *)

Definition make_pts {R : PyRuntime} (N : Z) : Py (list point) :=
  for_in (range 0 N)
    (fun _ X =>
       x_1 <- random_random ;;
       x_2 <- random_random ;;
       ret (X ++ [(x_1, x_2)]))
    [].

(** ** The generators *)

Definition simple {R : PyRuntime} (N : Z) : Py Graph :=
  X <- make_pts N ;;
  y <- for_in X
         (fun '(x_1, x_2) y =>
            let y1 := if (x_1 <? 0.5)%float then 1 else 0 in
            ret (y ++ [y1]))
         [] ;;
  ret (mkGraph N X y).

Definition diag {R : PyRuntime} (N : Z) : Py Graph :=
  X <- make_pts N ;;
  y <- for_in X
         (fun '(x_1, x_2) y =>
            let y1 := if (x_1 + x_2 <? 0.5)%float then 1 else 0 in
            ret (y ++ [y1]))
         [] ;;
  ret (mkGraph N X y).

Definition split {R : PyRuntime} (N : Z) : Py Graph :=
  X <- make_pts N ;;
  y <- for_in X
         (fun '(x_1, x_2) y =>
            let y1 :=
              if (x_1 <? 0.2)%float || (0.8 <? x_1)%float then 1 else 0 in
            ret (y ++ [y1]))
         [] ;;
  ret (mkGraph N X y).

(** [a and b or c and d] groups as [(a and b) or (c and d)]; [u > v] on
    floats is [v < u]. *)
Definition xor {R : PyRuntime} (N : Z) : Py Graph :=
  X <- make_pts N ;;
  y <- for_in X
         (fun '(x_1, x_2) y =>
            let y1 :=
              if (x_1 <? 0.5)%float && (0.5 <? x_2)%float
                 || (0.5 <? x_1)%float && (x_2 <? 0.5)%float
              then 1 else 0 in
            ret (y ++ [y1]))
         [] ;;
  ret (mkGraph N X y).

Definition circle {R : PyRuntime} (N : Z) : Py Graph :=
  X <- make_pts N ;;
  y <- for_in X
         (fun '(x_1, x_2) y =>
            let '(x1, x2) := ((x_1 - 0.5)%float, (x_2 - 0.5)%float) in
            let y1 := if (0.1 <? x1 * x1 + x2 * x2)%float then 1 else 0 in
            ret (y ++ [y1]))
         [] ;;
  ret (mkGraph N X y).

(** The two local helpers of [spiral]. *)
Definition spiral_x {R : PyRuntime} (t : float) : Py float :=
  float_truediv (t * math_cos t)%float 20%float.

Definition spiral_y {R : PyRuntime} (t : float) : Py float :=
  float_truediv (t * math_sin t)%float 20%float.

(** [float(i) / (N // 2)], as both comprehensions compute it (twice per
    point). *)
Definition spiral_ratio {R : PyRuntime} (N i : Z) : Py float :=
  fi <- float_of_int i ;;
  float_truediv_int fi (N / 2).

Definition spiral {R : PyRuntime} (N : Z) : Py Graph :=
  X <- list_comp
         (fun i =>
            q1 <- spiral_ratio N i ;;
            a <- spiral_x (10 * q1)%float ;;
            q2 <- spiral_ratio N i ;;
            b <- spiral_y (10 * q2)%float ;;
            ret ((a + 0.5)%float, (b + 0.5)%float))
         (range (5 + 0) (5 + N / 2)) ;;
  X' <- list_comp
          (fun i =>
             q1 <- spiral_ratio N i ;;
             a <- spiral_y (-10 * q1)%float ;;
             q2 <- spiral_ratio N i ;;
             b <- spiral_x (-10 * q2)%float ;;
             ret ((a + 0.5)%float, (b + 0.5)%float))
          (range (5 + 0) (5 + N / 2)) ;;
  let X := X ++ X' in
  zeros <- list_repeat 0 (N / 2) ;;
  ones <- list_repeat 1 (N / 2) ;;
  let y2 := zeros ++ ones in
  ret (mkGraph N X y2).

(** ** The lookup table *)

(** A dict literal with distinct keys, in insertion order. *)
Definition datasets {R : PyRuntime} : list (String.string * (Z -> Py Graph)) :=
  [ ("Simple", simple);
    ("Diag", diag);
    ("Split", split);
    ("Xor", xor);
    ("Circle", circle);
    ("Spiral", spiral) ]%string.

(** [d[key]], [None] standing for [KeyError]. *)
Fixpoint dict_get {V : Type} (d : list (String.string * V)) (key : String.string) : option V :=
  match d with
  | [] => None
  | (k, v) :: d' => if String.eqb key k then Some v else dict_get d' key
  end.

Definition dict_keys {V : Type} (d : list (String.string * V)) : list String.string :=
  map fst d.

(** ** Reference definitions used in the statements *)

(** [k] successive results of [random.random()], with the state after. *)
Fixpoint rng_draws {R : PyRuntime} (k : nat) (s : RngState) : list float * RngState :=
  match k with
  | O => ([], s)
  | S k' =>
      let (x, s1) := rng_next s in
      let (xs, s2) := rng_draws k' s1 in
      (x :: xs, s2)
  end.

(** [n] points, each made of two successive results of [random.random()],
    with the state after. *)
Fixpoint sample_pts {R : PyRuntime} (n : nat) (s : RngState) : list point * RngState :=
  match n with
  | O => ([], s)
  | S n' =>
      let (x_1, s1) := rng_next s in
      let (x_2, s2) := rng_next s1 in
      let (pts, s3) := sample_pts n' s2 in
      ((x_1, x_2) :: pts, s3)
  end.

(** The coordinates of a point sequence, in order. *)
Definition coords (pts : list point) : list float :=
  flat_map (fun p => [fst p; snd p]) pts.

(** The label rules of the five sampler-based generators, as functions of
    a point. *)
Definition simple_rule (p : point) : Z :=
  if (fst p <? 0.5)%float then 1 else 0.

Definition diag_rule (p : point) : Z :=
  if (fst p + snd p <? 0.5)%float then 1 else 0.

Definition split_rule (p : point) : Z :=
  if (fst p <? 0.2)%float || (0.8 <? fst p)%float then 1 else 0.

Definition xor_rule (p : point) : Z :=
  if (fst p <? 0.5)%float && (0.5 <? snd p)%float
     || (0.5 <? fst p)%float && (snd p <? 0.5)%float
  then 1 else 0.

Definition circle_rule (p : point) : Z :=
  let d1 := (fst p - 0.5)%float in
  let d2 := (snd p - 0.5)%float in
  if (0.1 <? d1 * d1 + d2 * d2)%float then 1 else 0.

(** Membership of the half-open interval [[0, 1)]. *)
Definition in_unit_interval (x : float) : bool :=
  (0 <=? x)%float && (x <? 1)%float.

(** The spiral's two coordinate functions and its two arms, as formulas. *)
Definition spiralX {R : PyRuntime} (t : float) : float :=
  (t * math_cos t / 20)%float.

Definition spiralY {R : PyRuntime} (t : float) : float :=
  (t * math_sin t / 20)%float.

Definition first_arm {R : PyRuntime} (M : Z) : list point :=
  map (fun i =>
         let t := (10 * (int_to_double i / int_to_double M))%float in
         ((spiralX t + 0.5)%float, (spiralY t + 0.5)%float))
      (range 5 (5 + M)).

Definition second_arm {R : PyRuntime} (M : Z) : list point :=
  map (fun i =>
         let t' := (-10 * (int_to_double i / int_to_double M))%float in
         ((spiralY t' + 0.5)%float, (spiralX t' + 0.5)%float))
      (range 5 (5 + M)).

(** A computation that neither reads nor advances the random source. *)
Definition rng_free {R : PyRuntime} {A : Type} (c : Py A) : Prop :=
  exists o, forall s, c s = (o, s).

(** ** A concrete run-time, for evaluating the module *)

(** A source that cycles through four values of [[0, 1)]. *)
Definition cycle_values : list float := [0.25; 0.75; 0.5; 0.125]%float.

Definition cycle_next (n : nat) : float * nat :=
  (nth (Nat.modulo n 4) cycle_values 0%float, S n).

(** Truncated power series standing in for the C library's functions. *)
Definition series_cos (t : float) : float :=
  (1 - t * t / 2 + t * t * t * t / 24)%float.

Definition series_sin (t : float) : float :=
  (t - t * t * t / 6)%float.

Definition demo_runtime : PyRuntime := {|
  RngState := nat;
  rng_next := cycle_next;
  math_cos := series_cos;
  math_sin := series_sin
|}.

(** * Properties *)

(** ** Evaluation on the concrete run-time *)

Example make_pts_demo :
  make_pts (R := demo_runtime) 2 0%nat
  = (Returned [(0.25, 0.75); (0.5, 0.125)]%float, 4%nat).
Proof. reflexivity. Qed.

Example simple_demo :
  simple (R := demo_runtime) 3 0%nat
  = (Returned (mkGraph 3 [(0.25, 0.75); (0.5, 0.125); (0.25, 0.75)]%float [1; 0; 1]),
     6%nat).
Proof. reflexivity. Qed.

Example xor_demo :
  xor (R := demo_runtime) 3 1%nat
  = (Returned (mkGraph 3 [(0.75, 0.5); (0.125, 0.25); (0.75, 0.5)]%float [0; 0; 0]),
     7%nat).
Proof. reflexivity. Qed.

Example spiral_demo_labels :
  match spiral (R := demo_runtime) 5 0%nat with
  | (Returned g, s) => (N g, length (X g), y g, s) = (5, 4%nat, [0; 0; 1; 1], 0%nat)
  | _ => False
  end.
Proof. vm_compute. reflexivity. Qed.

(** The division of [spiral] does raise when it is given a zero divisor. *)
Example float_truediv_int_zero :
  float_truediv_int (R := demo_runtime) 5%float 0 7%nat
  = (Raised ZeroDivisionError, 7%nat).
Proof. reflexivity. Qed.

(** The conversion is finite just below the limit and infinite at it. *)
Example int_to_double_limit :
  is_infinity (int_to_double (float_int_limit - 1)) = false
  /\ is_infinity (int_to_double float_int_limit) = true
  /\ is_infinity (int_to_double (- float_int_limit)) = true.
Proof. vm_compute. repeat split. Qed.

(** ** Ranges and repetitions *)

Lemma range_nil (a b : Z) : b <= a -> range a b = [].
Proof.
  intros Hle. unfold range.
  replace (Z.to_nat (b - a)) with 0%nat by lia. reflexivity.
Qed.

Lemma range_length (a b : Z) : List.length (range a b) = Z.to_nat (b - a).
Proof. unfold range. now rewrite length_map, length_seq. Qed.

Lemma in_range (a b i : Z) : In i (range a b) -> a <= i < b.
Proof.
  unfold range. rewrite in_map_iff. intros (k & <- & Hk).
  apply in_seq in Hk. lia.
Qed.

(** ** Comparisons of floats *)

Lemma SFcompare_antisym (a b : spec_float) :
  SFcompare b a = option_map CompOpp (SFcompare a b).
Proof.
  destruct a as [sa | sa | | sa ma ea], b as [sb | sb | | sb mb eb];
    try destruct sa; try destruct sb; try reflexivity; simpl;
    rewrite (Z.compare_antisym eb ea);
    destruct (eb ?= ea); simpl; try reflexivity;
    rewrite (Pos.compare_cont_antisym ma mb Eq); reflexivity.
Qed.

Lemma ltb_not_leb (u v : float) :
  (u <? v)%float = true -> (v <=? u)%float = false.
Proof.
  rewrite ltb_spec, leb_spec. unfold SFltb, SFleb.
  rewrite (SFcompare_antisym (Prim2SF u) (Prim2SF v)).
  destruct (SFcompare (Prim2SF u) (Prim2SF v)) as [[]|]; simpl; congruence.
Qed.

Lemma leb_not_ltb (u v : float) :
  (v <=? u)%float = true -> (u <? v)%float = false.
Proof.
  intros Hle. destruct (u <? v)%float eqn:Hlt; [|reflexivity].
  apply ltb_not_leb in Hlt. congruence.
Qed.

Lemma eqb_not_ltb (u v : float) :
  (u =? v)%float = true -> (u <? v)%float = false /\ (v <? u)%float = false.
Proof.
  rewrite FloatAxioms.eqb_spec, !ltb_spec. unfold SFeqb, SFltb.
  rewrite (SFcompare_antisym (Prim2SF u) (Prim2SF v)).
  destruct (SFcompare (Prim2SF u) (Prim2SF v)) as [[]|]; simpl;
    intuition congruence.
Qed.

(** ** The sampler and the labelling loops *)

Section Sampling.
Context {R : PyRuntime}.

(** The loop of [make_pts] appends one point per iteration, whatever the
    loop variable is. *)
Lemma make_pts_loop (xs : list Z) (acc : list point) (s : RngState) :
  for_in xs
    (fun _ X =>
       x_1 <- random_random ;;
       x_2 <- random_random ;;
       ret (X ++ [(x_1, x_2)]))
    acc s
  = (Returned (acc ++ fst (sample_pts (List.length xs) s)),
     snd (sample_pts (List.length xs) s)).
Proof.
  revert acc s. induction xs as [|v xs IH]; intros acc s; simpl.
  - unfold ret. now rewrite app_nil_r.
  - unfold bind at 1. unfold bind at 1. unfold random_random at 1.
    destruct (rng_next s) as [x_1 s1].
    unfold bind at 1. unfold random_random at 1.
    destruct (rng_next s1) as [x_2 s2].
    unfold ret at 1. rewrite IH.
    destruct (sample_pts (List.length xs) s2) as [pts s3]; simpl.
    now rewrite <- app_assoc.
Qed.

Lemma make_pts_eq (N : Z) (s : RngState) :
  make_pts N s
  = (Returned (fst (sample_pts (Z.to_nat N) s)), snd (sample_pts (Z.to_nat N) s)).
Proof.
  unfold make_pts. rewrite make_pts_loop, range_length, Z.sub_0_r.
  reflexivity.
Qed.

Lemma sample_pts_length (n : nat) (s : RngState) :
  List.length (fst (sample_pts n s)) = n.
Proof.
  revert s. induction n as [|n IH]; intros s; simpl; [reflexivity|].
  destruct (rng_next s) as [x_1 s1]. destruct (rng_next s1) as [x_2 s2].
  specialize (IH s2). destruct (sample_pts n s2) as [pts s3]; simpl in *.
  now rewrite IH.
Qed.

(** The points are the successive results of the source, two per point,
    first coordinate first. *)
Lemma sample_pts_draws (n : nat) (s : RngState) :
  (coords (fst (sample_pts n s)), snd (sample_pts n s)) = rng_draws (2 * n) s.
Proof.
  revert s. induction n as [|n IH]; intros s; [reflexivity|].
  replace (2 * S n)%nat with (S (S (2 * n))) by lia. simpl sample_pts.
  cbn [rng_draws].
  destruct (rng_next s) as [x_1 s1]. destruct (rng_next s1) as [x_2 s2].
  rewrite <- IH. destruct (sample_pts n s2) as [pts s3]. reflexivity.
Qed.

Lemma rng_draws_in_unit (k : nat) (s : RngState) :
  (forall s0, in_unit_interval (fst (rng_next s0)) = true) ->
  Forall (fun x => in_unit_interval x = true) (fst (rng_draws k s)).
Proof.
  intros Hunit. revert s. induction k as [|k IH]; intros s; simpl.
  - constructor.
  - pose proof (Hunit s) as Hx. destruct (rng_next s) as [x s1].
    specialize (IH s1). destruct (rng_draws k s1) as [xs s2].
    simpl in *. now constructor.
Qed.

(** A loop that appends [f p] for each [p] computes [map f]. *)
Lemma label_loop {A : Type} (f : A -> Z) (body : A -> list Z -> Py (list Z)) :
  (forall p acc s, body p acc s = (Returned (acc ++ [f p]), s)) ->
  forall xs acc s, for_in xs body acc s = (Returned (acc ++ map f xs), s).
Proof.
  intros Hbody. induction xs as [|p xs IH]; intros acc s; simpl.
  - unfold ret. now rewrite app_nil_r.
  - unfold bind. rewrite Hbody, IH. now rewrite <- app_assoc.
Qed.

(** The shape shared by the five sampler-based generators. *)
Lemma labelled_generator (f : point -> Z)
    (body : point -> list Z -> Py (list Z)) (N : Z) (s : RngState) :
  (forall p acc s0, body p acc s0 = (Returned (acc ++ [f p]), s0)) ->
  (X <- make_pts N ;; y <- for_in X body [] ;; ret (mkGraph N X y)) s
  = (Returned (mkGraph N (fst (sample_pts (Z.to_nat N) s))
                         (map f (fst (sample_pts (Z.to_nat N) s)))),
     snd (sample_pts (Z.to_nat N) s)).
Proof.
  intros Hbody. unfold bind at 1. rewrite make_pts_eq.
  unfold bind. rewrite (label_loop f body Hbody). reflexivity.
Qed.

Lemma simple_eq (N : Z) (s : RngState) :
  simple N s
  = (Returned (mkGraph N (fst (sample_pts (Z.to_nat N) s))
                         (map simple_rule (fst (sample_pts (Z.to_nat N) s)))),
     snd (sample_pts (Z.to_nat N) s)).
Proof. apply labelled_generator. now intros [x_1 x_2] acc s0. Qed.

Lemma diag_eq (N : Z) (s : RngState) :
  diag N s
  = (Returned (mkGraph N (fst (sample_pts (Z.to_nat N) s))
                         (map diag_rule (fst (sample_pts (Z.to_nat N) s)))),
     snd (sample_pts (Z.to_nat N) s)).
Proof. apply labelled_generator. now intros [x_1 x_2] acc s0. Qed.

Lemma split_eq (N : Z) (s : RngState) :
  split N s
  = (Returned (mkGraph N (fst (sample_pts (Z.to_nat N) s))
                         (map split_rule (fst (sample_pts (Z.to_nat N) s)))),
     snd (sample_pts (Z.to_nat N) s)).
Proof. apply labelled_generator. now intros [x_1 x_2] acc s0. Qed.

Lemma xor_eq (N : Z) (s : RngState) :
  xor N s
  = (Returned (mkGraph N (fst (sample_pts (Z.to_nat N) s))
                         (map xor_rule (fst (sample_pts (Z.to_nat N) s)))),
     snd (sample_pts (Z.to_nat N) s)).
Proof. apply labelled_generator. now intros [x_1 x_2] acc s0. Qed.

Lemma circle_eq (N : Z) (s : RngState) :
  circle N s
  = (Returned (mkGraph N (fst (sample_pts (Z.to_nat N) s))
                         (map circle_rule (fst (sample_pts (Z.to_nat N) s)))),
     snd (sample_pts (Z.to_nat N) s)).
Proof. apply labelled_generator. now intros [x_1 x_2] acc s0. Qed.

End Sampling.

(** ** Computations that leave the random source alone *)

Section RngFree.
Context {R : PyRuntime}.

Lemma rng_free_ret {A : Type} (a : A) : rng_free (ret a).
Proof. now exists (Returned a). Qed.

Lemma rng_free_raise {A : Type} (e : exn) : rng_free (raise (A := A) e).
Proof. now exists (Raised e). Qed.

Lemma rng_free_bind {A B : Type} (c : Py A) (k : A -> Py B) :
  rng_free c -> (forall a, rng_free (k a)) -> rng_free (bind c k).
Proof.
  intros [o Ho] Hk. destruct o as [a | e].
  - destruct (Hk a) as [o' Ho']. exists o'. intros s.
    unfold bind. now rewrite Ho.
  - exists (Raised e). intros s. unfold bind. now rewrite Ho.
Qed.

Lemma rng_free_list_comp {A B : Type} (e : A -> Py B) (xs : list A) :
  (forall v, rng_free (e v)) -> rng_free (list_comp e xs).
Proof.
  intros He. induction xs as [|v xs IH]; simpl.
  - apply rng_free_ret.
  - apply rng_free_bind; [apply He|]. intros b.
    apply rng_free_bind; [apply IH|]. intros bs. apply rng_free_ret.
Qed.

Lemma rng_free_float_of_int (i : Z) : rng_free (float_of_int i).
Proof.
  unfold float_of_int.
  destruct (Z.abs i <? float_int_limit);
    [apply rng_free_ret | apply rng_free_raise].
Qed.

Lemma rng_free_float_truediv (a b : float) : rng_free (float_truediv a b).
Proof.
  unfold float_truediv.
  destruct (b =? 0)%float; [apply rng_free_raise | apply rng_free_ret].
Qed.

Lemma rng_free_float_truediv_int (a : float) (b : Z) :
  rng_free (float_truediv_int a b).
Proof.
  unfold float_truediv_int.
  apply rng_free_bind; [apply rng_free_float_of_int|]. intros b'.
  destruct (b =? 0); [apply rng_free_raise | apply rng_free_ret].
Qed.

Lemma rng_free_spiral_ratio (N i : Z) : rng_free (spiral_ratio N i).
Proof.
  unfold spiral_ratio.
  apply rng_free_bind; [apply rng_free_float_of_int|]. intros fi.
  apply rng_free_float_truediv_int.
Qed.

Lemma rng_free_list_repeat {A : Type} (x : A) (k : Z) :
  rng_free (list_repeat x k).
Proof.
  unfold list_repeat.
  destruct ((- index_limit <=? k) && (k <? index_limit));
    [apply rng_free_ret | apply rng_free_raise].
Qed.

Lemma rng_free_spiral (N : Z) : rng_free (spiral N).
Proof.
  unfold spiral, spiral_x, spiral_y.
  repeat first
    [ apply rng_free_ret
    | apply rng_free_spiral_ratio
    | apply rng_free_float_truediv
    | apply rng_free_list_repeat
    | apply rng_free_list_comp; intros ?
    | apply rng_free_bind; [|intros ?] ].
Qed.

End RngFree.

(** ** The comprehensions of [spiral] *)

Section Comprehensions.
Context {R : PyRuntime}.

Lemma range_cons (a b : Z) : a < b -> range a b = a :: range (a + 1) b.
Proof.
  intros Hlt. unfold range.
  replace (Z.to_nat (b - a)) with (S (Z.to_nat (b - (a + 1)))) by lia.
  simpl. rewrite Z.add_0_r. f_equal.
  rewrite <- seq_shift, map_map. apply map_ext. intros k. lia.
Qed.

(** A comprehension whose elements all return, none touching the source,
    is a [map]. *)
Lemma list_comp_returns {A B : Type} (e : A -> Py B) (f : A -> B) (xs : list A) :
  (forall v, In v xs -> forall s, e v s = (Returned (f v), s)) ->
  forall s, list_comp e xs s = (Returned (map f xs), s).
Proof.
  induction xs as [|v xs IH]; intros He s; simpl; [reflexivity|].
  unfold bind. rewrite (He v (or_introl eq_refl)).
  rewrite IH; [reflexivity|]. intros w Hw. apply He. now right.
Qed.

(** A comprehension one of whose elements raises [err], the others
    returning or raising [err] as well, raises [err]. *)
Lemma list_comp_raises {A B : Type} (e : A -> Py B) (err : exn) (xs : list A) :
  (forall v, In v xs ->
     (exists b, forall s, e v s = (Returned b, s))
     \/ (forall s, e v s = (Raised err, s))) ->
  (exists v, In v xs /\ forall s, e v s = (Raised err, s)) ->
  forall s, list_comp e xs s = (Raised err, s).
Proof.
  induction xs as [|v xs IH]; intros Hall (w & Hw & Hraise) s.
  - destruct Hw.
  - simpl. unfold bind.
    destruct (Hall v (or_introl eq_refl)) as [[b Hb] | Hv].
    + rewrite Hb. destruct Hw as [-> | Hw].
      * specialize (Hb s). rewrite Hraise in Hb. discriminate.
      * rewrite IH; [reflexivity | |].
        -- intros u Hu. apply Hall. now right.
        -- now exists w.
    + now rewrite Hv.
Qed.

Lemma float_int_limit_large : 2 ^ 64 < float_int_limit.
Proof. reflexivity. Qed.

Lemma float_of_int_returns (i : Z) (s : RngState) :
  Z.abs i < float_int_limit ->
  float_of_int i s = (Returned (int_to_double i), s).
Proof.
  intros Hi. unfold float_of_int.
  apply Z.ltb_lt in Hi. now rewrite Hi.
Qed.

Lemma float_of_int_raises (i : Z) (s : RngState) :
  float_int_limit <= Z.abs i ->
  float_of_int i s = (Raised OverflowError, s).
Proof.
  intros Hi. unfold float_of_int.
  apply Z.ltb_ge in Hi. now rewrite Hi.
Qed.

Lemma spiral_x_eq (t : float) (s : RngState) :
  spiral_x t s = (Returned (spiralX t), s).
Proof. reflexivity. Qed.

Lemma spiral_y_eq (t : float) (s : RngState) :
  spiral_y t s = (Returned (spiralY t), s).
Proof. reflexivity. Qed.

Lemma spiral_ratio_returns (N i : Z) (s : RngState) :
  Z.abs i < float_int_limit ->
  0 < N / 2 < float_int_limit ->
  spiral_ratio N i s
  = (Returned (int_to_double i / int_to_double (N / 2))%float, s).
Proof.
  intros Hi HM. unfold spiral_ratio, float_truediv_int, bind.
  rewrite float_of_int_returns by assumption.
  rewrite float_of_int_returns by lia.
  destruct (Z.eqb_spec (N / 2) 0) as [H0 | _]; [lia | reflexivity].
Qed.

Lemma spiral_ratio_raises (N i : Z) (s : RngState) :
  0 < N / 2 ->
  float_int_limit <= Z.abs i \/ float_int_limit <= N / 2 ->
  spiral_ratio N i s = (Raised OverflowError, s).
Proof.
  intros HM Hbig. unfold spiral_ratio, float_truediv_int, bind.
  destruct (Z.lt_ge_cases (Z.abs i) float_int_limit) as [Hi | Hi].
  - rewrite float_of_int_returns by assumption.
    rewrite float_of_int_raises by lia. reflexivity.
  - now rewrite float_of_int_raises.
Qed.

End Comprehensions.

(** ** How [spiral] ends *)

Section Spiral.
Context {R : PyRuntime}.

Lemma bind_returned {A B : Type} (c : Py A) (k : A -> Py B) (a : A)
    (s s' : RngState) :
  c s = (Returned a, s') -> bind c k s = k a s'.
Proof. intros Hc. unfold bind. now rewrite Hc. Qed.

Lemma bind_raised {A B : Type} (c : Py A) (k : A -> Py B) (e : exn)
    (s s' : RngState) :
  c s = (Raised e, s') -> bind c k s = (Raised e, s').
Proof. intros Hc. unfold bind. now rewrite Hc. Qed.

Lemma index_limit_pos : 0 < index_limit.
Proof. reflexivity. Qed.

Lemma index_limit_converts : index_limit + 4 < float_int_limit.
Proof. reflexivity. Qed.

Lemma list_repeat_returns {A : Type} (x : A) (k : Z) (s : RngState) :
  - index_limit <= k < index_limit ->
  list_repeat x k s = (Returned (repeat x (Z.to_nat k)), s).
Proof.
  intros [Hlow Hhigh]. unfold list_repeat.
  apply Z.leb_le in Hlow. apply Z.ltb_lt in Hhigh.
  now rewrite Hlow, Hhigh.
Qed.

Lemma list_repeat_raises {A : Type} (x : A) (k : Z) (s : RngState) :
  k < - index_limit \/ index_limit <= k ->
  list_repeat x k s = (Raised OverflowError, s).
Proof.
  intros Hout. unfold list_repeat.
  destruct (Z.leb_spec (- index_limit) k) as [Hlow | Hlow];
    destruct (Z.ltb_spec k index_limit) as [Hhigh | Hhigh];
    try reflexivity; lia.
Qed.

(** The two comprehensions, whose elements return when every index and
    the half-count convert to a float. *)
Lemma first_comprehension_returns (N : Z) (s : RngState) :
  N / 2 + 4 < float_int_limit ->
  list_comp
    (fun i =>
       q1 <- spiral_ratio N i ;;
       a <- spiral_x (10 * q1)%float ;;
       q2 <- spiral_ratio N i ;;
       b <- spiral_y (10 * q2)%float ;;
       ret ((a + 0.5)%float, (b + 0.5)%float))
    (range (5 + 0) (5 + N / 2)) s
  = (Returned (first_arm (N / 2)), s).
Proof.
  intros Hlim. apply list_comp_returns. intros i Hi s0. apply in_range in Hi.
  rewrite (bind_returned _ _ _ s0 s0 (spiral_ratio_returns N i s0 ltac:(lia) ltac:(lia))).
  rewrite (bind_returned _ _ _ s0 s0 (spiral_x_eq _ s0)).
  rewrite (bind_returned _ _ _ s0 s0 (spiral_ratio_returns N i s0 ltac:(lia) ltac:(lia))).
  rewrite (bind_returned _ _ _ s0 s0 (spiral_y_eq _ s0)).
  reflexivity.
Qed.

Lemma second_comprehension_returns (N : Z) (s : RngState) :
  N / 2 + 4 < float_int_limit ->
  list_comp
    (fun i =>
       q1 <- spiral_ratio N i ;;
       a <- spiral_y (-10 * q1)%float ;;
       q2 <- spiral_ratio N i ;;
       b <- spiral_x (-10 * q2)%float ;;
       ret ((a + 0.5)%float, (b + 0.5)%float))
    (range (5 + 0) (5 + N / 2)) s
  = (Returned (second_arm (N / 2)), s).
Proof.
  intros Hlim. apply list_comp_returns. intros i Hi s0. apply in_range in Hi.
  rewrite (bind_returned _ _ _ s0 s0 (spiral_ratio_returns N i s0 ltac:(lia) ltac:(lia))).
  rewrite (bind_returned _ _ _ s0 s0 (spiral_y_eq _ s0)).
  rewrite (bind_returned _ _ _ s0 s0 (spiral_ratio_returns N i s0 ltac:(lia) ltac:(lia))).
  rewrite (bind_returned _ _ _ s0 s0 (spiral_x_eq _ s0)).
  reflexivity.
Qed.

(** When the half-count is an index-sized integer, the indices convert
    and both arms and both runs of labels are built; with an empty index
    range nothing is converted or divided, and all four are empty. *)
Lemma spiral_returns (N : Z) (s : RngState) :
  - index_limit <= N / 2 < index_limit ->
  spiral N s
  = (Returned (mkGraph N (first_arm (N / 2) ++ second_arm (N / 2))
                         (repeat 0 (Z.to_nat (N / 2))
                          ++ repeat 1 (Z.to_nat (N / 2)))),
     s).
Proof.
  intros HM. pose proof index_limit_converts as Hconv. unfold spiral.
  rewrite (bind_returned _ _ _ s s (first_comprehension_returns N s ltac:(lia))).
  rewrite (bind_returned _ _ _ s s (second_comprehension_returns N s ltac:(lia))).
  rewrite (bind_returned _ _ _ s s (list_repeat_returns 0 (N / 2) s HM)).
  rewrite (bind_returned _ _ _ s s (list_repeat_returns 1 (N / 2) s HM)).
  reflexivity.
Qed.

Lemma spiral_empty (N : Z) (s : RngState) :
  - index_limit <= N / 2 <= 0 ->
  spiral N s = (Returned (mkGraph N [] []), s).
Proof.
  intros HM. pose proof index_limit_pos as Hpos.
  rewrite spiral_returns by lia.
  unfold first_arm, second_arm. rewrite (range_nil 5 (5 + N / 2)) by lia.
  replace (Z.to_nat (N / 2)) with 0%nat by lia. reflexivity.
Qed.

(** When an index or the half-count is too large to convert to a float,
    the first comprehension raises. *)
Lemma first_comprehension_raises (N : Z) (s : RngState) :
  float_int_limit <= N / 2 + 4 ->
  list_comp
    (fun i =>
       q1 <- spiral_ratio N i ;;
       a <- spiral_x (10 * q1)%float ;;
       q2 <- spiral_ratio N i ;;
       b <- spiral_y (10 * q2)%float ;;
       ret ((a + 0.5)%float, (b + 0.5)%float))
    (range (5 + 0) (5 + N / 2)) s
  = (Raised OverflowError, s).
Proof.
  intros Hge. pose proof float_int_limit_large as Hlarge.
  assert (HM : 0 < N / 2) by lia.
  apply list_comp_raises.
  - intros i Hi. apply in_range in Hi.
    destruct (Z.lt_ge_cases (Z.abs i) float_int_limit) as [Hsmall | Hbig];
      [destruct (Z.lt_ge_cases (N / 2) float_int_limit) as [HMs | HMb]|].
    + left. eexists. intros s0.
      rewrite (bind_returned _ _ _ s0 s0 (spiral_ratio_returns N i s0 Hsmall ltac:(lia))).
      rewrite (bind_returned _ _ _ s0 s0 (spiral_x_eq _ s0)).
      rewrite (bind_returned _ _ _ s0 s0 (spiral_ratio_returns N i s0 Hsmall ltac:(lia))).
      rewrite (bind_returned _ _ _ s0 s0 (spiral_y_eq _ s0)).
      reflexivity.
    + right. intros s0. apply bind_raised.
      apply spiral_ratio_raises; [assumption | now right].
    + right. intros s0. apply bind_raised.
      apply spiral_ratio_raises; [assumption | now left].
  - exists (N / 2 + 4). split.
    + unfold range. apply in_map_iff. exists (Z.to_nat (N / 2 - 1)).
      split; [lia|]. apply in_seq. lia.
    + intros s0. apply bind_raised.
      apply spiral_ratio_raises; [assumption | left; lia].
Qed.

(** When the half-count is too large to convert to a float, the first
    division raises. *)
Lemma spiral_raises (N : Z) (s : RngState) :
  float_int_limit <= N / 2 ->
  spiral N s = (Raised OverflowError, s).
Proof.
  intros Hlim. unfold spiral. apply bind_raised.
  apply first_comprehension_raises. lia.
Qed.

(** Below the index-sized integers the index range is empty, both
    comprehensions return the empty list, and the repetition raises. *)
Lemma spiral_below_raises (N : Z) (s : RngState) :
  N / 2 < - index_limit ->
  spiral N s = (Raised OverflowError, s).
Proof.
  intros Hlow. pose proof index_limit_pos as Hpos.
  pose proof index_limit_converts as Hconv. unfold spiral.
  rewrite (bind_returned _ _ _ s s (first_comprehension_returns N s ltac:(lia))).
  rewrite (bind_returned _ _ _ s s (second_comprehension_returns N s ltac:(lia))).
  apply bind_raised. apply list_repeat_raises. now left.
Qed.

(** Above them either a conversion or the repetition raises. *)
Lemma spiral_above_raises (N : Z) (s : RngState) :
  index_limit <= N / 2 ->
  spiral N s = (Raised OverflowError, s).
Proof.
  intros Hhigh. unfold spiral.
  destruct (Z.lt_ge_cases (N / 2 + 4) float_int_limit) as [Hlt | Hge].
  - rewrite (bind_returned _ _ _ s s (first_comprehension_returns N s Hlt)).
    rewrite (bind_returned _ _ _ s s (second_comprehension_returns N s Hlt)).
    apply bind_raised. apply list_repeat_raises. now right.
  - apply bind_raised. now apply first_comprehension_raises.
Qed.

(** [spiral] returns only when the half-count is an index-sized integer. *)
Lemma spiral_returned_index (N : Z) (s s' : RngState) (g : Graph) :
  spiral N s = (Returned g, s') -> - index_limit <= N / 2 < index_limit.
Proof.
  intros Hrun.
  destruct (Z.lt_ge_cases (N / 2) (- index_limit)) as [Hlow | Hlow];
    [|destruct (Z.lt_ge_cases (N / 2) index_limit) as [Hhigh | Hhigh]];
    [exfalso | lia | exfalso].
  - rewrite spiral_below_raises in Hrun by assumption. discriminate.
  - rewrite spiral_above_raises in Hrun by assumption. discriminate.
Qed.

End Spiral.

(** * The claims *)

Section Claims.
Context {R : PyRuntime}.

(** What the sampler-based generators have in common: the points are the
    sampler's, the count is the argument and the labels are the rule
    mapped over the points. *)
Lemma labelled_dataset (gen : Z -> Py Graph) (rule : point -> Z) :
  (forall n s,
      gen n s
      = (Returned (mkGraph n (fst (sample_pts (Z.to_nat n) s))
                             (map rule (fst (sample_pts (Z.to_nat n) s)))),
         snd (sample_pts (Z.to_nat n) s))) ->
  forall n s, exists pts s',
    make_pts n s = (Returned pts, s')
    /\ gen n s = (Returned (mkGraph n pts (map rule pts)), s')
    /\ List.length pts = Z.to_nat n.
Proof.
  intros Hgen n s.
  exists (fst (sample_pts (Z.to_nat n) s)), (snd (sample_pts (Z.to_nat n) s)).
  rewrite make_pts_eq, Hgen, sample_pts_length. auto.
Qed.

Lemma nth_error_rule (rule : point -> Z) (pts : list point) (i : nat) (p : point) :
  nth_error pts i = Some p -> nth_error (map rule pts) i = Some (rule p).
Proof. intros Hp. now rewrite nth_error_map, Hp. Qed.

(** C4. For every N >= 0, [make_pts N] returns exactly N points; their
    coordinates are, in order, the next 2*N results of the random source
    (which is advanced by as many steps), so each lies in [[0, 1)] as the
    results of the source do; and [make_pts 0] returns the empty list. *)
Theorem C4_make_pts (n : Z) (s : RngState) :
  0 <= n ->
  (forall s0, in_unit_interval (fst (rng_next s0)) = true) ->
  (exists pts s',
      make_pts n s = (Returned pts, s')
      /\ Z.of_nat (List.length pts) = n
      /\ (coords pts, s') = rng_draws (2 * Z.to_nat n) s
      /\ Forall (fun p => in_unit_interval (fst p) = true
                          /\ in_unit_interval (snd p) = true) pts)
  /\ make_pts 0 s = (Returned [], s).
Proof.
  intros Hn Hunit. split; [|reflexivity].
  exists (fst (sample_pts (Z.to_nat n) s)), (snd (sample_pts (Z.to_nat n) s)).
  split; [apply make_pts_eq|]. split; [rewrite sample_pts_length; lia|].
  split; [apply sample_pts_draws|].
  pose proof (rng_draws_in_unit (2 * Z.to_nat n) s Hunit) as Hall.
  rewrite <- sample_pts_draws in Hall. simpl in Hall.
  induction (fst (sample_pts (Z.to_nat n) s)) as [|p pts IH]; [constructor|].
  simpl in Hall. inversion Hall as [|? ? H1 Hall1]; subst.
  inversion Hall1 as [|? ? H2 Hall2]; subst.
  constructor; [now split | now apply IH].
Qed.

(** C5. For every N >= 0, [simple N] returns the points the sampler
    produced with, at each index, the label 1 if x1 < 0.5 and 0
    otherwise; in particular a point with x1 >= 0.5 has label 0. *)
Theorem C5_simple_labels (n : Z) (s : RngState) :
  0 <= n ->
  exists pts labels s',
    make_pts n s = (Returned pts, s')
    /\ simple n s = (Returned (mkGraph n pts labels), s')
    /\ List.length labels = List.length pts
    /\ forall i x1 x2,
         nth_error pts i = Some (x1, x2) ->
         nth_error labels i = Some (if (x1 <? 0.5)%float then 1 else 0)
         /\ ((0.5 <=? x1)%float = true -> nth_error labels i = Some 0).
Proof.
  intros _. destruct (labelled_dataset simple simple_rule simple_eq n s)
    as (pts & s' & Hpts & Hgen & _).
  exists pts, (map simple_rule pts), s'.
  split; [assumption|]. split; [assumption|]. split; [apply length_map|].
  intros i x1 x2 Hp. split.
  - exact (nth_error_rule simple_rule pts i (x1, x2) Hp).
  - intros Hge. rewrite (nth_error_rule simple_rule pts i (x1, x2) Hp).
    unfold simple_rule; simpl. now rewrite (leb_not_ltb x1 0.5 Hge).
Qed.

(** C6. For every N >= 0, [xor N] returns the points the sampler produced
    with, at each index, the label 1 if (x1 < 0.5 and x2 > 0.5) or
    (x1 > 0.5 and x2 < 0.5) and 0 otherwise; in particular a point with
    x1 == 0.5 or x2 == 0.5 has label 0. *)
Theorem C6_xor_labels (n : Z) (s : RngState) :
  0 <= n ->
  exists pts labels s',
    make_pts n s = (Returned pts, s')
    /\ xor n s = (Returned (mkGraph n pts labels), s')
    /\ List.length labels = List.length pts
    /\ forall i x1 x2,
         nth_error pts i = Some (x1, x2) ->
         nth_error labels i
         = Some (if (x1 <? 0.5)%float && (0.5 <? x2)%float
                    || (0.5 <? x1)%float && (x2 <? 0.5)%float
                 then 1 else 0)
         /\ ((x1 =? 0.5)%float = true \/ (x2 =? 0.5)%float = true ->
             nth_error labels i = Some 0).
Proof.
  intros _. destruct (labelled_dataset xor xor_rule xor_eq n s)
    as (pts & s' & Hpts & Hgen & _).
  exists pts, (map xor_rule pts), s'.
  split; [assumption|]. split; [assumption|]. split; [apply length_map|].
  intros i x1 x2 Hp. split.
  - exact (nth_error_rule xor_rule pts i (x1, x2) Hp).
  - intros Heq. rewrite (nth_error_rule xor_rule pts i (x1, x2) Hp).
    unfold xor_rule; simpl.
    destruct Heq as [Heq | Heq]; apply eqb_not_ltb in Heq as [H1 H2];
      rewrite H1, H2; now rewrite ?andb_false_r.
Qed.

(** C7. For every N >= 0, [circle N] returns the points the sampler
    produced with, at each index, for d1 = x1 - 0.5 and d2 = x2 - 0.5,
    the label 1 if d1*d1 + d2*d2 > 0.1 (strictly) and 0 otherwise. *)
Theorem C7_circle_labels (n : Z) (s : RngState) :
  0 <= n ->
  exists pts labels s',
    make_pts n s = (Returned pts, s')
    /\ circle n s = (Returned (mkGraph n pts labels), s')
    /\ List.length labels = List.length pts
    /\ forall i x1 x2,
         nth_error pts i = Some (x1, x2) ->
         let d1 := (x1 - 0.5)%float in
         let d2 := (x2 - 0.5)%float in
         nth_error labels i
         = Some (if (0.1 <? d1 * d1 + d2 * d2)%float then 1 else 0)
         /\ ((d1 * d1 + d2 * d2 <=? 0.1)%float = true ->
             nth_error labels i = Some 0).
Proof.
  intros _. destruct (labelled_dataset circle circle_rule circle_eq n s)
    as (pts & s' & Hpts & Hgen & _).
  exists pts, (map circle_rule pts), s'.
  split; [assumption|]. split; [assumption|]. split; [apply length_map|].
  intros i x1 x2 Hp d1 d2. split.
  - exact (nth_error_rule circle_rule pts i (x1, x2) Hp).
  - intros Hle. rewrite (nth_error_rule circle_rule pts i (x1, x2) Hp).
    subst d1 d2. unfold circle_rule; simpl.
    now rewrite (leb_not_ltb _ _ Hle).
Qed.

Lemma range_nth_error (a b : Z) (k : nat) :
  (k < Z.to_nat (b - a))%nat -> nth_error (range a b) k = Some (a + Z.of_nat k).
Proof.
  intros Hk. unfold range.
  rewrite nth_error_map, nth_error_seq.
  destruct (Nat.ltb_spec k (Z.to_nat (b - a))) as [_ | Hge]; [reflexivity | lia].
Qed.

Lemma first_arm_length (M : Z) : List.length (first_arm M) = Z.to_nat M.
Proof.
  unfold first_arm. rewrite length_map, range_length. f_equal. lia.
Qed.

Lemma second_arm_length (M : Z) : List.length (second_arm M) = Z.to_nat M.
Proof.
  unfold second_arm. rewrite length_map, range_length. f_equal. lia.
Qed.

Lemma dict_get_absent {V : Type} (d : list (String.string * V)) (key : String.string) :
  ~ In key (dict_keys d) -> dict_get d key = None.
Proof.
  induction d as [|[k v] d IH]; intros Hnot; simpl; [reflexivity|].
  destruct (String.eqb_spec key k) as [-> | Hne].
  - exfalso. apply Hnot. now left.
  - apply IH. intros Hin. apply Hnot. now right.
Qed.

(** C3 (amended). For every N >= 2 whose half M = N // 2 is an
    index-sized integer (M < 2^63), [spiral N] returns the first arm
    followed by the second arm: for i in
    [[5, 5+M)], the first arm's point is (spiralX(t)+0.5, spiralY(t)+0.5)
    with t = 10*(i/M), the second arm's is (spiralY(t')+0.5,
    spiralX(t')+0.5) with t' = -10*(i/M); and the labels are M zeros
    followed by M ones. *)
Theorem C3_spiral_arms (n : Z) (s : RngState) :
  2 <= n ->
  n / 2 < index_limit ->
  let M := n / 2 in
  exists pts labels,
    spiral n s = (Returned (mkGraph n pts labels), s)
    /\ pts = first_arm M ++ second_arm M
    /\ labels = repeat 0 (Z.to_nat M) ++ repeat 1 (Z.to_nat M)
    /\ List.length pts = (2 * Z.to_nat M)%nat
    /\ forall k, (k < Z.to_nat M)%nat ->
         let i := 5 + Z.of_nat k in
         let t := (10 * (int_to_double i / int_to_double M))%float in
         let t' := (-10 * (int_to_double i / int_to_double M))%float in
         nth_error pts k
         = Some ((spiralX t + 0.5)%float, (spiralY t + 0.5)%float)
         /\ nth_error pts (Z.to_nat M + k)
            = Some ((spiralY t' + 0.5)%float, (spiralX t' + 0.5)%float)
         /\ nth_error labels k = Some 0
         /\ nth_error labels (Z.to_nat M + k) = Some 1.
Proof.
  intros Hn Hlim M.
  assert (HM : 0 < M) by (subst M; apply Z.div_str_pos; lia).
  exists (first_arm M ++ second_arm M),
         (repeat 0 (Z.to_nat M) ++ repeat 1 (Z.to_nat M)).
  pose proof index_limit_pos as Hpos.
  split; [apply spiral_returns; lia|].
  split; [reflexivity|]. split; [reflexivity|].
  split; [rewrite length_app, first_arm_length, second_arm_length; lia|].
  intros k Hk i t t'.
  assert (Hi : nth_error (range 5 (5 + M)) k = Some i)
    by (apply range_nth_error; lia).
  repeat split.
  - rewrite nth_error_app1 by (rewrite first_arm_length; lia).
    unfold first_arm. now rewrite nth_error_map, Hi.
  - rewrite nth_error_app2 by (rewrite first_arm_length; lia).
    rewrite first_arm_length.
    replace (Z.to_nat M + k - Z.to_nat M)%nat with k by lia.
    unfold second_arm. now rewrite nth_error_map, Hi.
  - rewrite nth_error_app1 by (rewrite repeat_length; lia).
    now apply nth_error_repeat.
  - rewrite nth_error_app2 by (rewrite repeat_length; lia).
    rewrite repeat_length.
    replace (Z.to_nat M + k - Z.to_nat M)%nat with k by lia.
    now apply nth_error_repeat.
Qed.

(** C2 (amended). For N = 0 or N = 1 the index range of [spiral] is
    empty, so no division takes place: [spiral N] raises nothing and
    returns a dataset with count N and no point and no label. *)
Theorem C2_spiral_small (n : Z) (s : RngState) :
  n = 0 \/ n = 1 ->
  spiral n s = (Returned (mkGraph n [] []), s).
Proof.
  intros [-> | ->]; apply spiral_empty; split; apply Z.leb_le; reflexivity.
Qed.

(** Where the invariant of a dataset holds.  For every N >= 0, each of
    [simple], [diag], [split], [xor] and [circle] returns a dataset whose
    count is N and whose point and label sequences both have N elements;
    so does [spiral N] when N is even and its half is an index-sized
    integer. *)
Theorem dataset_lengths (n : Z) (s : RngState) :
  0 <= n ->
  (forall gen, In gen [simple; diag; split; xor; circle] ->
     exists g s',
       gen n s = (Returned g, s')
       /\ N g = n
       /\ Z.of_nat (List.length (X g)) = n
       /\ Z.of_nat (List.length (y g)) = n)
  /\ (Z.even n = true -> n / 2 < index_limit ->
      exists g,
        spiral n s = (Returned g, s)
        /\ N g = n
        /\ Z.of_nat (List.length (X g)) = n
        /\ Z.of_nat (List.length (y g)) = n).
Proof.
  intros Hn. split.
  - assert (Hshape : forall gen rule,
               (forall n0 s0,
                   gen n0 s0
                   = (Returned (mkGraph n0 (fst (sample_pts (Z.to_nat n0) s0))
                                (map rule (fst (sample_pts (Z.to_nat n0) s0)))),
                      snd (sample_pts (Z.to_nat n0) s0))) ->
               exists g s',
                 gen n s = (Returned g, s')
                 /\ N g = n
                 /\ Z.of_nat (List.length (X g)) = n
                 /\ Z.of_nat (List.length (y g)) = n).
    { intros gen rule Hgen.
      destruct (labelled_dataset gen rule Hgen n s) as (pts & s' & _ & Hg & Hlen).
      exists (mkGraph n pts (map rule pts)), s'. cbn [N X y].
      rewrite length_map, Hlen. repeat split; try assumption; lia. }
    intros gen [<- | [<- | [<- | [<- | [<- | []]]]]].
    + exact (Hshape simple simple_rule simple_eq).
    + exact (Hshape diag diag_rule diag_eq).
    + exact (Hshape split split_rule split_eq).
    + exact (Hshape xor xor_rule xor_eq).
    + exact (Hshape circle circle_rule circle_eq).
  - intros Heven Hlim. apply Z.even_spec in Heven as [m Hm].
    assert (Hhalf : n / 2 = m)
      by (rewrite Hm, Z.mul_comm; apply Z.div_mul; lia).
    pose proof index_limit_pos as Hpos.
    eexists. rewrite spiral_returns by lia.
    split; [reflexivity|]. cbn [N X y].
    rewrite !length_app, first_arm_length, second_arm_length, !repeat_length.
    repeat split; lia.
Qed.

(** C8. The table has exactly the six keys "Simple", "Diag", "Split",
    "Xor", "Circle" and "Spiral", each mapped to the generator of that
    name, a function from an integer to a computation of a dataset;
    every other key is absent. *)
Theorem C8_datasets_table :
  dict_keys datasets
  = ["Simple"; "Diag"; "Split"; "Xor"; "Circle"; "Spiral"]%string
  /\ NoDup (dict_keys datasets)
  /\ dict_get datasets "Simple"%string = Some simple
  /\ dict_get datasets "Diag"%string = Some diag
  /\ dict_get datasets "Split"%string = Some split
  /\ dict_get datasets "Xor"%string = Some xor
  /\ dict_get datasets "Circle"%string = Some circle
  /\ dict_get datasets "Spiral"%string = Some spiral
  /\ forall key,
       ~ In key ["Simple"; "Diag"; "Split"; "Xor"; "Circle"; "Spiral"]%string ->
       dict_get datasets key = None.
Proof.
  split; [reflexivity|]. split.
  - simpl. repeat constructor; simpl; intuition discriminate.
  - repeat (split; [reflexivity|]).
    intros key Hkey. now apply dict_get_absent.
Qed.

(** C9. [spiral] never consults the random source: for every integer N
    its outcome is the same from any two states of the source, and the
    state is left as it was; so two successive calls end the same way,
    and when they return, they return datasets with the same count, the
    same points and the same labels. *)
Theorem C9_spiral_deterministic (n : Z) (s1 s2 : RngState) :
  fst (spiral n s1) = fst (spiral n s2)
  /\ snd (spiral n s1) = s1
  /\ fst (spiral n (snd (spiral n s1))) = fst (spiral n s1)
  /\ forall g1 g2 s1' s2',
       spiral n s1 = (Returned g1, s1') ->
       spiral n s2 = (Returned g2, s2') ->
       N g1 = N g2 /\ X g1 = X g2 /\ y g1 = y g2.
Proof.
  destruct (rng_free_spiral n) as [o Ho].
  rewrite !Ho. cbn [fst snd].
  split; [reflexivity|]. split; [reflexivity|]. split; [reflexivity|].
  intros g1 g2 s1' s2' H1 H2.
  assert (Hg : g1 = g2) by congruence.
  now rewrite Hg.
Qed.

(** C10 (amended). For every negative N, each of [simple], [diag],
    [split], [xor] and [circle] returns without raising and without
    advancing the random source, and the dataset has count N and no point
    and no label; so does [spiral] when N // 2 >= -2^63, and below that
    [spiral] raises [OverflowError], the repeat count of [[0] * (N // 2)]
    not being an index-sized integer. *)
Theorem C10_negative_count (n : Z) (s : RngState) :
  n < 0 ->
  simple n s = (Returned (mkGraph n [] []), s)
  /\ diag n s = (Returned (mkGraph n [] []), s)
  /\ split n s = (Returned (mkGraph n [] []), s)
  /\ xor n s = (Returned (mkGraph n [] []), s)
  /\ circle n s = (Returned (mkGraph n [] []), s)
  /\ (- index_limit <= n / 2 -> spiral n s = (Returned (mkGraph n [] []), s))
  /\ (n / 2 < - index_limit -> spiral n s = (Raised OverflowError, s)).
Proof.
  intros Hn.
  rewrite simple_eq, diag_eq, split_eq, xor_eq, circle_eq.
  replace (Z.to_nat n) with 0%nat by lia. cbn [sample_pts fst snd map].
  repeat (split; [reflexivity|]).
  assert (Hhalf : n / 2 < 0) by (apply Z.div_lt_upper_bound; lia).
  split.
  - intros Hlow. apply spiral_empty. lia.
  - apply spiral_below_raises.
Qed.

(** For every N, [diag N] returns the points the sampler produced with,
    at each index, the label 1 if x1 + x2 < 0.5 and 0 otherwise. *)
Theorem diag_labels (n : Z) (s : RngState) :
  exists pts labels s',
    make_pts n s = (Returned pts, s')
    /\ diag n s = (Returned (mkGraph n pts labels), s')
    /\ List.length labels = List.length pts
    /\ forall i x1 x2,
         nth_error pts i = Some (x1, x2) ->
         nth_error labels i = Some (if (x1 + x2 <? 0.5)%float then 1 else 0).
Proof.
  destruct (labelled_dataset diag diag_rule diag_eq n s)
    as (pts & s' & Hpts & Hgen & _).
  exists pts, (map diag_rule pts), s'.
  split; [assumption|]. split; [assumption|]. split; [apply length_map|].
  intros i x1 x2 Hp. exact (nth_error_rule diag_rule pts i (x1, x2) Hp).
Qed.

(** For every N, [split N] returns the points the sampler produced with,
    at each index, the label 1 if x1 < 0.2 or x1 > 0.8 and 0 otherwise. *)
Theorem split_labels (n : Z) (s : RngState) :
  exists pts labels s',
    make_pts n s = (Returned pts, s')
    /\ split n s = (Returned (mkGraph n pts labels), s')
    /\ List.length labels = List.length pts
    /\ forall i x1 x2,
         nth_error pts i = Some (x1, x2) ->
         nth_error labels i
         = Some (if (x1 <? 0.2)%float || (0.8 <? x1)%float then 1 else 0).
Proof.
  destruct (labelled_dataset split split_rule split_eq n s)
    as (pts & s' & Hpts & Hgen & _).
  exists pts, (map split_rule pts), s'.
  split; [assumption|]. split; [assumption|]. split; [apply length_map|].
  intros i x1 x2 Hp. exact (nth_error_rule split_rule pts i (x1, x2) Hp).
Qed.

(** How [spiral N] ends, by M = N // 2: [OverflowError] when M < -2^63
    (the repeat count is not an index-sized integer); an empty dataset
    when -2^63 <= M <= 0; both arms when 0 < M < 2^63; [OverflowError]
    again, from the first division, when M is too large to convert to a
    float. *)
Theorem spiral_outcomes (n : Z) (s : RngState) :
  (n / 2 < - index_limit ->
   spiral n s = (Raised OverflowError, s))
  /\ (- index_limit <= n / 2 <= 0 ->
      spiral n s = (Returned (mkGraph n [] []), s))
  /\ (0 < n / 2 < index_limit ->
      spiral n s
      = (Returned (mkGraph n (first_arm (n / 2) ++ second_arm (n / 2))
                             (repeat 0 (Z.to_nat (n / 2))
                              ++ repeat 1 (Z.to_nat (n / 2)))),
         s))
  /\ (float_int_limit <= n / 2 ->
      spiral n s = (Raised OverflowError, s)).
Proof.
  pose proof index_limit_pos as Hpos.
  split; [apply spiral_below_raises|].
  split; [apply spiral_empty|].
  split; [|apply spiral_raises].
  intros HM. apply spiral_returns. lia.
Qed.

End Claims.

(** * The claims on the concrete run-time *)

Lemma cycle_next_in_unit (n : nat) :
  in_unit_interval (fst (rng_next (PyRuntime := demo_runtime) n)) = true.
Proof.
  change (in_unit_interval (nth (Nat.modulo n 4) cycle_values 0%float) = true).
  pose proof (Nat.mod_upper_bound n 4 ltac:(lia)) as Hlt.
  destruct (Nat.modulo n 4) as [|[|[|[|k]]]]; try reflexivity. lia.
Qed.

Lemma demo_half_is_index : 4 / 2 < index_limit.
Proof. reflexivity. Qed.

(** C1. The code at the failing input: [spiral 3] returns a dataset whose
    count is 3 and which has two points and two labels, so the invariant
    "length of X = length of y = N" is broken. *)
Lemma C1_spiral_odd_count :
  exists g,
    spiral (R := demo_runtime) 3 0%nat = (Returned g, 0%nat)
    /\ N g = 3
    /\ List.length (X g) = 2%nat
    /\ List.length (y g) = 2%nat.
Proof.
  eexists. split; [vm_compute; reflexivity|]. repeat split.
Qed.

Lemma dataset_lengths_witness :
  0 <= 4
  /\ (forall gen, In gen [simple (R := demo_runtime); diag; split; xor; circle] ->
       exists g s',
         gen 4 0%nat = (Returned g, s')
         /\ N g = 4
         /\ Z.of_nat (List.length (X g)) = 4
         /\ Z.of_nat (List.length (y g)) = 4)
  /\ (Z.even 4 = true -> 4 / 2 < index_limit ->
       exists g,
         spiral (R := demo_runtime) 4 0%nat = (Returned g, 0%nat)
         /\ N g = 4
         /\ Z.of_nat (List.length (X g)) = 4
         /\ Z.of_nat (List.length (y g)) = 4).
Proof.
  split; [lia|]. apply (dataset_lengths (R := demo_runtime) 4 0%nat). lia.
Defined.

(** C2, as stated, fails at both inputs: [spiral 0] and [spiral 1] return
    an empty dataset and raise nothing. *)
Lemma C2_spiral_small_returns :
  spiral (R := demo_runtime) 0 0%nat = (Returned (mkGraph 0 [] []), 0%nat)
  /\ spiral (R := demo_runtime) 1 0%nat = (Returned (mkGraph 1 [] []), 0%nat).
Proof. split; reflexivity. Qed.

Lemma C2_spiral_small_witness :
  (1 = 0 \/ 1 = 1)
  /\ spiral (R := demo_runtime) 1 5%nat = (Returned (mkGraph 1 [] []), 5%nat).
Proof.
  split; [right; reflexivity|].
  apply (C2_spiral_small (R := demo_runtime) 1 5%nat). right. reflexivity.
Defined.

(** C3, as stated, fails at N = 2^1030: the half-count 2^1029 is too large
    to convert to a float and the first division raises. *)
Lemma C3_spiral_huge_raises :
  2 <= 2 ^ 1030
  /\ spiral (R := demo_runtime) (2 ^ 1030) 0%nat = (Raised OverflowError, 0%nat).
Proof.
  split; [apply Z.leb_le; vm_compute; reflexivity|].
  apply (spiral_raises (R := demo_runtime) (2 ^ 1030) 0%nat).
  apply Z.leb_le. vm_compute. reflexivity.
Qed.

Lemma C3_spiral_arms_witness :
  2 <= 4
  /\ 4 / 2 < index_limit
  /\ exists pts labels,
       spiral (R := demo_runtime) 4 0%nat = (Returned (mkGraph 4 pts labels), 0%nat)
       /\ pts = first_arm (R := demo_runtime) 2 ++ second_arm (R := demo_runtime) 2
       /\ labels = [0; 0; 1; 1]
       /\ List.length pts = 4%nat.
Proof.
  split; [lia|]. split; [exact demo_half_is_index|].
  destruct (C3_spiral_arms (R := demo_runtime) 4 0%nat ltac:(lia) demo_half_is_index)
    as (pts & labels & Hrun & Hpts & Hlabels & Hlen & _).
  exists pts, labels. repeat split; assumption.
Defined.

Lemma C4_make_pts_witness :
  0 <= 3
  /\ (forall s0, in_unit_interval (fst (rng_next (PyRuntime := demo_runtime) s0)) = true)
  /\ exists pts s',
       make_pts (R := demo_runtime) 3 0%nat = (Returned pts, s')
       /\ Z.of_nat (List.length pts) = 3
       /\ (coords pts, s') = rng_draws (R := demo_runtime) (2 * Z.to_nat 3) 0%nat
       /\ Forall (fun p => in_unit_interval (fst p) = true
                           /\ in_unit_interval (snd p) = true) pts.
Proof.
  split; [lia|]. split; [exact cycle_next_in_unit|].
  apply (C4_make_pts (R := demo_runtime) 3 0%nat); [lia | exact cycle_next_in_unit].
Defined.

Lemma C5_simple_labels_witness :
  0 <= 3
  /\ exists pts labels s',
       make_pts (R := demo_runtime) 3 0%nat = (Returned pts, s')
       /\ simple (R := demo_runtime) 3 0%nat = (Returned (mkGraph 3 pts labels), s')
       /\ List.length labels = List.length pts
       /\ forall i x1 x2,
            nth_error pts i = Some (x1, x2) ->
            nth_error labels i = Some (if (x1 <? 0.5)%float then 1 else 0)
            /\ ((0.5 <=? x1)%float = true -> nth_error labels i = Some 0).
Proof.
  split; [lia|]. apply (C5_simple_labels (R := demo_runtime) 3 0%nat). lia.
Defined.

Lemma C6_xor_labels_witness :
  0 <= 3
  /\ exists pts labels s',
       make_pts (R := demo_runtime) 3 1%nat = (Returned pts, s')
       /\ xor (R := demo_runtime) 3 1%nat = (Returned (mkGraph 3 pts labels), s')
       /\ List.length labels = List.length pts
       /\ forall i x1 x2,
            nth_error pts i = Some (x1, x2) ->
            nth_error labels i
            = Some (if (x1 <? 0.5)%float && (0.5 <? x2)%float
                       || (0.5 <? x1)%float && (x2 <? 0.5)%float
                    then 1 else 0)
            /\ ((x1 =? 0.5)%float = true \/ (x2 =? 0.5)%float = true ->
                nth_error labels i = Some 0).
Proof.
  split; [lia|]. apply (C6_xor_labels (R := demo_runtime) 3 1%nat). lia.
Defined.

Lemma C7_circle_labels_witness :
  0 <= 3
  /\ exists pts labels s',
       make_pts (R := demo_runtime) 3 0%nat = (Returned pts, s')
       /\ circle (R := demo_runtime) 3 0%nat = (Returned (mkGraph 3 pts labels), s')
       /\ List.length labels = List.length pts
       /\ forall i x1 x2,
            nth_error pts i = Some (x1, x2) ->
            let d1 := (x1 - 0.5)%float in
            let d2 := (x2 - 0.5)%float in
            nth_error labels i
            = Some (if (0.1 <? d1 * d1 + d2 * d2)%float then 1 else 0)
            /\ ((d1 * d1 + d2 * d2 <=? 0.1)%float = true ->
                nth_error labels i = Some 0).
Proof.
  split; [lia|]. apply (C7_circle_labels (R := demo_runtime) 3 0%nat). lia.
Defined.

(** C10, as stated, fails at N = -2^65: the index range is empty but
    [[0] * (N // 2)] has a repeat count below -2^63 and raises. *)
Lemma C10_spiral_very_negative_raises :
  - 2 ^ 65 < 0
  /\ spiral (R := demo_runtime) (- 2 ^ 65) 0%nat = (Raised OverflowError, 0%nat).
Proof. split; reflexivity. Qed.

Lemma C10_negative_count_witness :
  -3 < 0
  /\ simple (R := demo_runtime) (-3) 7%nat = (Returned (mkGraph (-3) [] []), 7%nat)
  /\ diag (R := demo_runtime) (-3) 7%nat = (Returned (mkGraph (-3) [] []), 7%nat)
  /\ split (R := demo_runtime) (-3) 7%nat = (Returned (mkGraph (-3) [] []), 7%nat)
  /\ xor (R := demo_runtime) (-3) 7%nat = (Returned (mkGraph (-3) [] []), 7%nat)
  /\ circle (R := demo_runtime) (-3) 7%nat = (Returned (mkGraph (-3) [] []), 7%nat)
  /\ (- index_limit <= -3 / 2 ->
      spiral (R := demo_runtime) (-3) 7%nat = (Returned (mkGraph (-3) [] []), 7%nat))
  /\ (-3 / 2 < - index_limit ->
      spiral (R := demo_runtime) (-3) 7%nat = (Raised OverflowError, 7%nat)).
Proof.
  split; [lia|]. apply (C10_negative_count (R := demo_runtime) (-3) 7%nat). lia.
Defined.

(** * Further properties of the generators *)

Section Generators.
Context {R : PyRuntime}.

(** Sampling [a + b] points is sampling [a] and then [b] from the state
    reached. *)
Lemma sample_pts_add (a b : nat) (s : RngState) :
  sample_pts (a + b) s
  = (fst (sample_pts a s) ++ fst (sample_pts b (snd (sample_pts a s))),
     snd (sample_pts b (snd (sample_pts a s)))).
Proof.
  revert s. induction a as [|a IH]; intros s; simpl.
  - now destruct (sample_pts b s).
  - destruct (rng_next s) as [x_1 s1]. destruct (rng_next s1) as [x_2 s2].
    rewrite IH. destruct (sample_pts a s2) as [pts s3]. reflexivity.
Qed.

Lemma sample_pts_state (n : nat) (s : RngState) :
  snd (sample_pts n s) = snd (rng_draws (2 * n) s).
Proof. now rewrite <- sample_pts_draws. Qed.

(** What [spiral] returns, when it returns.  With an empty index range
    both arms and both runs of labels are empty. *)
Lemma spiral_returned (n : Z) (s s' : RngState) (g : Graph) :
  spiral n s = (Returned g, s') ->
  s' = s
  /\ g = mkGraph n (first_arm (n / 2) ++ second_arm (n / 2))
                   (repeat 0 (Z.to_nat (n / 2)) ++ repeat 1 (Z.to_nat (n / 2))).
Proof.
  intros Hrun. pose proof (spiral_returned_index n s s' g Hrun) as HM.
  rewrite spiral_returns in Hrun by assumption.
  injection Hrun as <- <-. split; reflexivity.
Qed.

(** Two successive calls of the sampler give what one call for the sum of
    the two counts gives: the second call continues where the first left
    the random source. *)
Theorem make_pts_compose (n m : Z) (s : RngState) :
  0 <= n -> 0 <= m ->
  exists p1 s1 p2 s2,
    make_pts n s = (Returned p1, s1)
    /\ make_pts m s1 = (Returned p2, s2)
    /\ make_pts (n + m) s = (Returned (p1 ++ p2), s2).
Proof.
  intros Hn Hm.
  exists (fst (sample_pts (Z.to_nat n) s)), (snd (sample_pts (Z.to_nat n) s)).
  exists (fst (sample_pts (Z.to_nat m) (snd (sample_pts (Z.to_nat n) s)))),
         (snd (sample_pts (Z.to_nat m) (snd (sample_pts (Z.to_nat n) s)))).
  rewrite !make_pts_eq. rewrite Z2Nat.inj_add by assumption.
  rewrite sample_pts_add. auto.
Qed.

(** For every integer N, each sampler-based generator returns (it raises
    nothing), its points are the sampler's, and it leaves the random source
    2 * max(N, 0) results further: labelling draws nothing. *)
Theorem sampler_generators_consume (n : Z) (s : RngState) :
  Forall
    (fun gen : Z -> Py Graph =>
       exists pts labels,
         make_pts n s = (Returned pts, snd (rng_draws (2 * Z.to_nat n) s))
         /\ gen n s
            = (Returned (mkGraph n pts labels), snd (rng_draws (2 * Z.to_nat n) s)))
    [simple; diag; split; xor; circle].
Proof.
  assert (Hshape : forall gen rule,
             (forall n0 s0,
                 gen n0 s0
                 = (Returned (mkGraph n0 (fst (sample_pts (Z.to_nat n0) s0))
                              (map rule (fst (sample_pts (Z.to_nat n0) s0)))),
                    snd (sample_pts (Z.to_nat n0) s0))) ->
             exists pts labels,
               make_pts n s = (Returned pts, snd (rng_draws (2 * Z.to_nat n) s))
               /\ gen n s
                  = (Returned (mkGraph n pts labels),
                     snd (rng_draws (2 * Z.to_nat n) s))).
  { intros gen rule Hgen.
    exists (fst (sample_pts (Z.to_nat n) s)),
           (map rule (fst (sample_pts (Z.to_nat n) s))).
    rewrite make_pts_eq, Hgen, sample_pts_state. auto. }
  repeat constructor.
  - exact (Hshape simple simple_rule simple_eq).
  - exact (Hshape diag diag_rule diag_eq).
  - exact (Hshape split split_rule split_eq).
  - exact (Hshape xor xor_rule xor_eq).
  - exact (Hshape circle circle_rule circle_eq).
Qed.

(** Whatever the generator and the integer N, every label of a returned
    dataset is 0 or 1. *)
Theorem labels_are_binary (n : Z) (s : RngState) :
  Forall
    (fun gen : Z -> Py Graph =>
       forall g s', gen n s = (Returned g, s') ->
                    Forall (fun l => l = 0 \/ l = 1) (y g))
    [simple; diag; split; xor; circle; spiral].
Proof.
  assert (Hshape : forall gen rule,
             (forall p, rule p = 0 \/ rule p = 1) ->
             (forall n0 s0,
                 gen n0 s0
                 = (Returned (mkGraph n0 (fst (sample_pts (Z.to_nat n0) s0))
                              (map rule (fst (sample_pts (Z.to_nat n0) s0)))),
                    snd (sample_pts (Z.to_nat n0) s0))) ->
             forall g s', gen n s = (Returned g, s') ->
                          Forall (fun l => l = 0 \/ l = 1) (y g)).
  { intros gen rule Hrule Hgen g s' Hrun. rewrite Hgen in Hrun.
    injection Hrun as <- _. cbn [y]. apply Forall_map, Forall_forall.
    intros p _. apply Hrule. }
  repeat constructor.
  - apply (Hshape simple simple_rule); [|exact simple_eq].
    intros p. unfold simple_rule. destruct (_ <? _)%float; auto.
  - apply (Hshape diag diag_rule); [|exact diag_eq].
    intros p. unfold diag_rule. destruct (_ <? _)%float; auto.
  - apply (Hshape split split_rule); [|exact split_eq].
    intros p. unfold split_rule. destruct (_ || _); auto.
  - apply (Hshape xor xor_rule); [|exact xor_eq].
    intros p. unfold xor_rule. destruct (_ || _); auto.
  - apply (Hshape circle circle_rule); [|exact circle_eq].
    intros p. unfold circle_rule. cbv zeta. destruct (_ <? _)%float; auto.
  - intros g s' Hrun. apply spiral_returned in Hrun as [_ ->]. cbn [y].
    apply Forall_app. split; apply Forall_forall; intros l Hl;
      apply repeat_spec in Hl; auto.
Qed.

(** Every generator of the table stores its argument as the count and
    returns as many labels as points, for every integer N; for [spiral]
    at odd N that common length is not the count. *)
Theorem table_generators_aligned :
  Forall
    (fun entry : String.string * (Z -> Py Graph) =>
       forall n s g s',
         snd entry n s = (Returned g, s') ->
         N g = n /\ List.length (X g) = List.length (y g))
    datasets.
Proof.
  assert (Hshape : forall gen rule,
             (forall n0 s0,
                 gen n0 s0
                 = (Returned (mkGraph n0 (fst (sample_pts (Z.to_nat n0) s0))
                              (map rule (fst (sample_pts (Z.to_nat n0) s0)))),
                    snd (sample_pts (Z.to_nat n0) s0))) ->
             forall n s g s',
               gen n s = (Returned g, s') ->
               N g = n /\ List.length (X g) = List.length (y g)).
  { intros gen rule Hgen n s g s' Hrun. rewrite Hgen in Hrun.
    injection Hrun as <- _. cbn [N X y]. now rewrite length_map. }
  unfold datasets.
  apply Forall_cons; [exact (Hshape simple simple_rule simple_eq)|].
  apply Forall_cons; [exact (Hshape diag diag_rule diag_eq)|].
  apply Forall_cons; [exact (Hshape split split_rule split_eq)|].
  apply Forall_cons; [exact (Hshape xor xor_rule xor_eq)|].
  apply Forall_cons; [exact (Hshape circle circle_rule circle_eq)|].
  apply Forall_cons; [|apply Forall_nil].
  - cbn [snd]. intros n s g s' Hrun. apply spiral_returned in Hrun as [_ ->].
    cbn [N X y]. split; [reflexivity|].
    now rewrite !length_app, first_arm_length, second_arm_length,
      !repeat_length.
Qed.

(** [spiral] reads its argument through N // 2 only: at 2k + 1 it ends as
    it does at 2k, with the same points and labels when it returns, and
    only the stored count differs. *)
Theorem spiral_odd_as_even (k : Z) (s : RngState) :
  match spiral (2 * k) s with
  | (Returned g, s') =>
      spiral (2 * k + 1) s = (Returned (mkGraph (2 * k + 1) (X g) (y g)), s')
  | (Raised e, s') => spiral (2 * k + 1) s = (Raised e, s')
  end.
Proof.
  assert (Heven : 2 * k / 2 = k)
    by (rewrite Z.mul_comm; apply Z.div_mul; lia).
  assert (Hodd : (2 * k + 1) / 2 = k)
    by (rewrite (Z.mul_comm 2 k), Z.div_add_l by lia; apply Z.add_0_r).
  destruct (Z.lt_ge_cases k (- index_limit)) as [Hlow | Hlow];
    [|destruct (Z.lt_ge_cases k index_limit) as [Hhigh | Hhigh]].
  - rewrite !spiral_below_raises by lia. reflexivity.
  - rewrite !spiral_returns by lia. cbn [X y]. now rewrite Heven, Hodd.
  - rewrite !spiral_above_raises by lia. reflexivity.
Qed.

(** The two classes of a spiral dataset have the same size: N // 2 labels
    are 0 and N // 2 are 1 (none when N // 2 is negative), and there are
    twice as many points. *)
Theorem spiral_balanced (n : Z) (s s' : RngState) (g : Graph) :
  spiral n s = (Returned g, s') ->
  count_occ Z.eq_dec (y g) 0 = Z.to_nat (n / 2)
  /\ count_occ Z.eq_dec (y g) 1 = Z.to_nat (n / 2)
  /\ List.length (X g) = (2 * Z.to_nat (n / 2))%nat.
Proof.
  intros Hrun. apply spiral_returned in Hrun as [_ ->]. cbn [X y].
  rewrite !count_occ_app.
  rewrite (count_occ_repeat_eq Z.eq_dec (x := 0) (y := 0)) by reflexivity.
  rewrite (count_occ_repeat_neq Z.eq_dec (x := 0) (y := 1)) by discriminate.
  rewrite (count_occ_repeat_neq Z.eq_dec (x := 1) (y := 0)) by discriminate.
  rewrite (count_occ_repeat_eq Z.eq_dec (x := 1) (y := 1)) by reflexivity.
  rewrite length_app, first_arm_length, second_arm_length. lia.
Qed.

(** In a [split] dataset a point whose x1 lies in the closed band
    [[0.2, 0.8]] has label 0: both comparisons of the rule are strict. *)
Theorem split_middle_band (n : Z) (s : RngState) :
  exists pts labels s',
    split n s = (Returned (mkGraph n pts labels), s')
    /\ forall i x1 x2,
         nth_error pts i = Some (x1, x2) ->
         (0.2 <=? x1)%float = true ->
         (x1 <=? 0.8)%float = true ->
         nth_error labels i = Some 0.
Proof.
  destruct (labelled_dataset split split_rule split_eq n s)
    as (pts & s' & _ & Hgen & _).
  exists pts, (map split_rule pts), s'. split; [assumption|].
  intros i x1 x2 Hp Hlow Hhigh.
  rewrite (nth_error_rule split_rule pts i (x1, x2) Hp).
  unfold split_rule; cbn [fst].
  now rewrite (leb_not_ltb x1 0.2 Hlow), (leb_not_ltb 0.8 x1 Hhigh).
Qed.

(** In a [diag] dataset a point with x1 + x2 >= 0.5, the sum being the
    float sum the rule computes, has label 0. *)
Theorem diag_upper_side (n : Z) (s : RngState) :
  exists pts labels s',
    diag n s = (Returned (mkGraph n pts labels), s')
    /\ forall i x1 x2,
         nth_error pts i = Some (x1, x2) ->
         (0.5 <=? x1 + x2)%float = true ->
         nth_error labels i = Some 0.
Proof.
  destruct (labelled_dataset diag diag_rule diag_eq n s)
    as (pts & s' & _ & Hgen & _).
  exists pts, (map diag_rule pts), s'. split; [assumption|].
  intros i x1 x2 Hp Hsum.
  rewrite (nth_error_rule diag_rule pts i (x1, x2) Hp).
  unfold diag_rule; cbn [fst snd].
  now rewrite (leb_not_ltb _ 0.5 Hsum).
Qed.

(** The rule of [xor] does not tell the two coordinates apart: two points
    of a dataset that are each other's mirror image in the diagonal have
    the same label. *)
Theorem xor_mirror_labels (n : Z) (s : RngState) :
  exists pts labels s',
    xor n s = (Returned (mkGraph n pts labels), s')
    /\ forall i j a b,
         nth_error pts i = Some (a, b) ->
         nth_error pts j = Some (b, a) ->
         nth_error labels i = nth_error labels j.
Proof.
  destruct (labelled_dataset xor xor_rule xor_eq n s)
    as (pts & s' & _ & Hgen & _).
  exists pts, (map xor_rule pts), s'. split; [assumption|].
  intros i j a b Hi Hj.
  rewrite (nth_error_rule xor_rule pts i (a, b) Hi).
  rewrite (nth_error_rule xor_rule pts j (b, a) Hj).
  unfold xor_rule; cbn [fst snd].
  destruct (a <? 0.5)%float, (0.5 <? b)%float, (0.5 <? a)%float,
    (b <? 0.5)%float; reflexivity.
Qed.

End Generators.

Lemma spiral_balanced_witness :
  spiral (R := demo_runtime) 5 0%nat
  = (Returned (mkGraph 5 (first_arm (R := demo_runtime) 2 ++ second_arm (R := demo_runtime) 2)
                       [0; 0; 1; 1]),
     0%nat)
  /\ count_occ Z.eq_dec [0; 0; 1; 1] 0 = 2%nat
  /\ count_occ Z.eq_dec [0; 0; 1; 1] 1 = 2%nat
  /\ List.length (first_arm (R := demo_runtime) 2 ++ second_arm (R := demo_runtime) 2)
     = 4%nat.
Proof.
  assert (Hrun : spiral (R := demo_runtime) 5 0%nat
                 = (Returned (mkGraph 5 (first_arm (R := demo_runtime) 2
                                         ++ second_arm (R := demo_runtime) 2)
                                      [0; 0; 1; 1]),
                    0%nat)) by (vm_compute; reflexivity).
  split; [exact Hrun|].
  exact (spiral_balanced (R := demo_runtime) 5 0%nat 0%nat _ Hrun).
Defined.

Lemma make_pts_compose_witness :
  0 <= 1 /\ 0 <= 2
  /\ exists p1 s1 p2 s2,
       make_pts (R := demo_runtime) 1 0%nat = (Returned p1, s1)
       /\ make_pts (R := demo_runtime) 2 s1 = (Returned p2, s2)
       /\ make_pts (R := demo_runtime) (1 + 2) 0%nat = (Returned (p1 ++ p2), s2).
Proof.
  split; [lia|]. split; [lia|].
  apply (make_pts_compose (R := demo_runtime) 1 2 0%nat); lia.
Defined.
